(** * OceanGuard: coastal monitoring backend (app.py)

    A shallow embedding of the time-series pipeline of [app.py]: the
    bounded random-walk generator, the status classifier, the record
    store, the runtime settings, the dummy-mode flag and the
    linear-regression forecast.

    Numbers.  Python floats are modelled by the rationals [Q] with exact
    arithmetic; every finite float is a rational, so comparisons against
    the integer thresholds of the code are exact.  Python ints are [Z].
    [math.sin] is the platform's libm and is taken as a parameter of the
    forecast.  Randomness and the clock are explicit inputs. *)

From Stdlib Require Import ZArith QArith Qround Lia Lqa List String.
From stdpp Require Import base option gmap strings.
Import ListNotations.

Open Scope Q_scope.

(* ------------------------------------------------------------------ *)
(** ** Python built-ins used by the code *)
(* ------------------------------------------------------------------ *)

Module Py.

(** [x < y] and [x <= y] on numbers. *)
Definition ltb (x y : Q) : bool := if Qlt_le_dec x y then true else false.
Definition leb (x y : Q) : bool := if Qlt_le_dec y x then false else true.

(** [min(a, b)] and [max(a, b)]: the first argument is kept unless the
    second is strictly smaller (resp. strictly larger). *)
Definition min (a b : Q) : Q := if ltb b a then b else a.
Definition max (a b : Q) : Q := if ltb a b then b else a.

(** Rounding to the nearest integer, ties to the even one. *)
Definition round_half_even (q : Q) : Z :=
  let f := Qfloor q in
  match Qcompare (q - inject_Z f) (1 # 2) with
  | Lt => f
  | Gt => (f + 1)%Z
  | Eq => if Z.even f then f else (f + 1)%Z
  end.

(** [round(x, ndigits)]. *)
Definition round (x : Q) (ndigits : Z) : Q :=
  let p := inject_Z (10 ^ ndigits) in
  inject_Z (round_half_even (x * p)) / p.

(** [range(lo, hi)]. *)
Definition range (lo hi : Z) : list Z :=
  map (fun i => (lo + Z.of_nat i)%Z) (seq 0 (Z.to_nat (hi - lo))).

(** [enumerate(l)]. *)
Fixpoint enumerate_from {A} (i : Z) (l : list A) : list (Z * A) :=
  match l with
  | [] => []
  | x :: l' => (i, x) :: enumerate_from (i + 1)%Z l'
  end.
Definition enumerate {A} (l : list A) : list (Z * A) := enumerate_from 0%Z l.

(** [sum(l)]: a left fold starting at 0, on ints and on floats. *)
Definition sum_int (l : list Z) : Z := fold_left Z.add l 0%Z.
Definition sum (l : list Q) : Q := fold_left Qplus l 0.

(** [a / b] on floats: raises ZeroDivisionError ([None]) when [b] is 0. *)
Definition div (a b : Q) : option Q :=
  if Qeq_bool b 0 then None else Some (a / b).

End Py.

(* ------------------------------------------------------------------ *)
(** ** Data model *)
(* ------------------------------------------------------------------ *)

(** The status strings "Normal", "Warning", "Danger". *)
Inductive Status := Normal | Warning | Danger.

#[global] Instance Status_eq_dec : EqDecision Status.
Proof. solve_decision. Defined.

(** A dict with the keys sea_level and wind_speed ([_prev], and the value
    returned by [generate_sensor_values]). *)
Module Vals.
Record t := mk { sea_level : Q; wind_speed : Q }.
End Vals.

(** A row of the table sensor_data.  The timestamp is the clock reading
    in whole seconds, which the formatted string "%Y-%m-%d %H:%M:%S"
    stands for. *)
Module Row.
Record t := mk { id : Z; sea_level : Q; wind_speed : Q; timestamp : Z }.
End Row.

(** The dict [settings]. *)
Module Settings.
Record t := mk { data_interval : Z; chart_points : Z; prediction_days : Z }.
End Settings.

(** One entry of the forecast.  The date is the day number of the
    calendar date that "%Y-%m-%d" prints. *)
Module Prediction.
Record t := mk {
  day : Z;
  date : Z;
  sea_level : Q;
  wind_speed : Q;
  sea_status : Status;
  wind_status : Status;
  overall_status : Status
}.
End Prediction.

(** The process-wide state: the module globals and the database table
    (rows in ascending id order). *)
Record World := mkWorld {
  dummy_mode_enabled : bool;
  _prev : Vals.t;
  settings : Settings.t;
  sensor_data : list Row.t
}.

Definition initial_world : World :=
  mkWorld true (Vals.mk 130 10) (Settings.mk 3 50 7) [].

(* ------------------------------------------------------------------ *)
(** ** Sensor-value helpers *)
(* ------------------------------------------------------------------ *)

Definition _clamp (value lo hi : Q) : Q := Py.max lo (Py.min hi value).

(** [generate_sensor_values]; the two draws of [random.uniform] are the
    inputs [delta_sea] and [delta_wind]. *)
Definition generate_sensor_values (delta_sea delta_wind : Q) (w : World)
  : Vals.t * World :=
  let new_sea := _clamp (Vals.sea_level (_prev w) + delta_sea) 50 250 in
  let new_wind := _clamp (Vals.wind_speed (_prev w) + delta_wind) 1 25 in
  let w' := mkWorld (dummy_mode_enabled w) (Vals.mk new_sea new_wind)
                    (settings w) (sensor_data w) in
  (Vals.mk (Py.round new_sea 2) (Py.round new_wind 2), w').

Definition priority (s : Status) : Z :=
  match s with Normal => 0 | Warning => 1 | Danger => 2 end%Z.

(** [max(a, b, key=...)]: [a] is kept unless [b] has a strictly larger key. *)
Definition max_by_key (key : Status -> Z) (a b : Status) : Status :=
  if (key a <? key b)%Z then b else a.

Definition compute_status (sea_level wind_speed : Q)
  : Status * Status * Status :=
  let sea_status :=
    if Py.ltb sea_level 120 then Normal
    else if Py.leb sea_level 180 then Warning
    else Danger in
  let wind_status :=
    if Py.ltb wind_speed 10 then Normal
    else if Py.leb wind_speed 18 then Warning
    else Danger in
  let overall := max_by_key priority sea_status wind_status in
  (sea_status, wind_status, overall).

(** [insert_record]: appends a row stamped with the clock reading [now];
    the id is the one AUTOINCREMENT assigns. *)
Definition insert_record (sea_level wind_speed : Q) (now : Z) (w : World)
  : Z * World :=
  let ts := now in
  let row := Row.mk (Z.of_nat (length (sensor_data w)) + 1) sea_level wind_speed ts in
  (ts, mkWorld (dummy_mode_enabled w) (_prev w) (settings w)
               (sensor_data w ++ [row])).

(* ------------------------------------------------------------------ *)
(** ** Routes *)
(* ------------------------------------------------------------------ *)

(** Response bodies of POST /api/sensor-data. *)
Inductive PostBody :=
| PostError (msg : string)
| PostOk (ts : Z).

(** [post_sensor_data]: [data] is the JSON object of the request, its
    numeric members already converted by [float]. *)
Definition post_sensor_data (data : gmap string Q) (now : Z) (w : World)
  : (PostBody * Z) * World :=
  match data !! "sea_level"%string, data !! "wind_speed"%string with
  | Some sea, Some wind =>
      let '(ts, w') := insert_record sea wind now w in
      ((PostOk ts, 201%Z), w')
  | _, _ => ((PostError "sea_level and wind_speed required", 400%Z), w)
  end.

(** [api_toggle_dummy] and [api_dummy_status]: the body is the value of
    the key dummy_mode. *)
Definition api_toggle_dummy (w : World) : bool * World :=
  let w' := mkWorld (negb (dummy_mode_enabled w)) (_prev w) (settings w)
                    (sensor_data w) in
  let state := dummy_mode_enabled w' in
  (state, w').

Definition api_dummy_status (w : World) : bool * World :=
  let state := dummy_mode_enabled w in
  (state, w).

(** [api_get_settings] and [api_update_settings].  [data] maps each key of
    the request object to the integer [int(data[key])]. *)
Definition api_get_settings (w : World) : Settings.t * World :=
  (settings w, w).

Definition api_update_settings (data : gmap string Z) (w : World)
  : Settings.t * World :=
  let s := settings w in
  let s :=
    match data !! "data_interval"%string with
    | Some v => Settings.mk (Z.max 1 (Z.min 60 v))
                            (Settings.chart_points s) (Settings.prediction_days s)
    | None => s
    end in
  let s :=
    match data !! "chart_points"%string with
    | Some v => Settings.mk (Settings.data_interval s)
                            (Z.max 10 (Z.min 500 v)) (Settings.prediction_days s)
    | None => s
    end in
  let s :=
    match data !! "prediction_days"%string with
    | Some v => Settings.mk (Settings.data_interval s)
                            (Settings.chart_points s) (Z.max 1 (Z.min 30 v))
    | None => s
    end in
  (s, mkWorld (dummy_mode_enabled w) (_prev w) s (sensor_data w)).

(* ------------------------------------------------------------------ *)
(** ** Prediction (linear-regression forecast) *)
(* ------------------------------------------------------------------ *)

Definition lr_sx (n : Z) : Z := Py.sum_int (Py.range 0 n).
Definition lr_sxx (n : Z) : Z :=
  Py.sum_int (map (fun i => (i * i)%Z) (Py.range 0 n)).
Definition lr_denom (n : Z) : Z := (n * lr_sxx n - lr_sx n * lr_sx n)%Z.

(** [_linear_regression], over the float division [fdiv]. *)
Definition _linear_regression_with (fdiv : Q -> Q -> option Q) (ys : list Q)
  : option (Q * Q) :=
  let n := Z.of_nat (length ys) in
  if (n <? 2)%Z then
    Some (0, match ys with y0 :: _ => y0 | [] => 0 end)
  else
    let sx := lr_sx n in
    let sy := Py.sum ys in
    let sxx := lr_sxx n in
    let sxy := Py.sum (map (fun '(i, y) => inject_Z i * y) (Py.enumerate ys)) in
    let denom := (n * sxx - sx * sx)%Z in
    if (denom =? 0)%Z then
      m ← fdiv sy (inject_Z n);
      Some (0, m)
    else
      slope ← fdiv (inject_Z n * sxy - inject_Z sx * sy) (inject_Z denom);
      intercept ← fdiv (sy - slope * inject_Z sx) (inject_Z n);
      Some (slope, intercept).

Definition _linear_regression : list Q -> option (Q * Q) :=
  _linear_regression_with Py.div.

(** Each index step is taken to be 3 seconds. *)
Definition steps_per_day : Q := (24 * 3600) / 3.

Definition future_idx (n day : Z) : Q :=
  inject_Z n + inject_Z day * steps_per_day.

(** Response bodies of GET /api/prediction. *)
Inductive PredBody :=
| PredError (msg : string)
| PredList (predictions : list Prediction.t).

Section Forecast.

(** [math.sin]. *)
Variable sin : Q -> Q.

(** The body of the loop over [day]; [now] is the clock in seconds. *)
Definition predict_day (sea_slope sea_int wind_slope wind_int : Q)
           (n now day : Z) : Prediction.t :=
  let future_idx := future_idx n day in
  let pred_sea := sea_int + sea_slope * future_idx in
  let pred_wind := wind_int + wind_slope * future_idx in
  let pred_sea := pred_sea + 15 * sin (inject_Z day * 0.9) in
  let pred_wind := pred_wind + 3 * sin (inject_Z day * 1.1 + 0.5) in
  let pred_sea := Py.max 50 (Py.min 250 (Py.round pred_sea 2)) in
  let pred_wind := Py.max 1 (Py.min 25 (Py.round pred_wind 2)) in
  let '(sea_s, wind_s, overall) := compute_status pred_sea pred_wind in
  Prediction.mk day ((now + day * 86400) / 86400)%Z pred_sea pred_wind
                sea_s wind_s overall.

(** [api_prediction]: body and HTTP status, or [None] when an exception
    escapes the handler. *)
Definition api_prediction (now : Z) (w : World) : option (PredBody * Z) :=
  let days := Settings.prediction_days (settings w) in
  let rows := firstn 200 (rev (sensor_data w)) in
  if (Z.of_nat (length rows) <? 2)%Z then
    Some (PredError "not enough data for prediction", 200%Z)
  else
    let rows := rev rows in
    let sea_vals := map Row.sea_level rows in
    let wind_vals := map Row.wind_speed rows in
    '(sea_slope, sea_int) ← _linear_regression sea_vals;
    '(wind_slope, wind_int) ← _linear_regression wind_vals;
    let n := Z.of_nat (length sea_vals) in
    let predictions :=
      map (predict_day sea_slope sea_int wind_slope wind_int n now)
          (Py.range 1 (days + 1)) in
    Some (PredList predictions, 200%Z).

End Forecast.

(** The rows [api_prediction] fits: the last 200, oldest first. *)
Definition window (w : World) : list Row.t :=
  rev (firstn 200 (rev (sensor_data w))).

(** The entries with the date left out. *)
Definition without_dates (r : option (PredBody * Z))
  : option (string + list (Z * Q * Q * Status * Status * Status)) :=
  match r with
  | Some (PredError msg, _) => Some (inl msg)
  | Some (PredList l, _) =>
      Some (inr (map (fun p => (Prediction.day p, Prediction.sea_level p,
                                Prediction.wind_speed p, Prediction.sea_status p,
                                Prediction.wind_status p,
                                Prediction.overall_status p)) l))
  | None => None
  end.

(** The physical bounds of the two metrics. *)
Definition in_bounds (sea_level wind_speed : Q) : Prop :=
  50 <= sea_level <= 250 /\ 1 <= wind_speed <= 25.

(** A rational sine for running the forecast: the degree-5 Taylor
    polynomial cut to [-1, 1]. *)
Definition sin_taylor (x : Q) : Q :=
  _clamp (x - x * x * x / 6 + x * x * x * x * x / 120) (-1) 1.

(* ------------------------------------------------------------------ *)
(** ** Reading routes, manual generation and the background loop *)
(* ------------------------------------------------------------------ *)

(** The text of a status. *)
Definition status_str (s : Status) : string :=
  match s with
  | Normal => "Normal"
  | Warning => "Warning"
  | Danger => "Danger"
  end.

(** The dict [row_to_dict] builds: the columns of the row and the three
    status fields. *)
Module RowDict.
Record t := mk {
  id : Z;
  sea_level : Q;
  wind_speed : Q;
  timestamp : Z;
  sea_status : Status;
  wind_status : Status;
  overall_status : Status
}.
End RowDict.

Definition row_to_dict (row : Row.t) : RowDict.t :=
  let '(sea_status, wind_status, overall) :=
    compute_status (Row.sea_level row) (Row.wind_speed row) in
  RowDict.mk (Row.id row) (Row.sea_level row) (Row.wind_speed row)
             (Row.timestamp row) sea_status wind_status overall.

(** The columns of a row, read back from the dict. *)
Definition dict_row (d : RowDict.t) : Row.t :=
  Row.mk (RowDict.id d) (RowDict.sea_level d) (RowDict.wind_speed d)
         (RowDict.timestamp d).

(** [LIMIT n] of SQLite: a negative [n] means no limit. *)
Definition sql_limit {A} (n : Z) (rows : list A) : list A :=
  if (n <? 0)%Z then rows else firstn (Z.to_nat n) rows.

(** Response bodies of GET /api/latest. *)
Inductive LatestBody :=
| LatestMessage (msg : string)
| LatestRow (d : RowDict.t).

(** [api_latest]: the row with the largest id, if any. *)
Definition api_latest (w : World) : LatestBody * Z :=
  match sql_limit 1 (rev (sensor_data w)) with
  | [] => (LatestMessage "no data yet", 200%Z)
  | row :: _ => (LatestRow (row_to_dict row), 200%Z)
  end.

(** [api_history]: the newest [chart_points] rows, oldest first. *)
Definition api_history (w : World) : list RowDict.t :=
  let limit := Settings.chart_points (settings w) in
  let rows := sql_limit limit (rev (sensor_data w)) in
  map row_to_dict (rev rows).

(** The record [api_generate_dummy] returns (it has no id). *)
Module DummyRecord.
Record t := mk {
  sea_level : Q;
  wind_speed : Q;
  timestamp : Z;
  sea_status : Status;
  wind_status : Status;
  overall_status : Status
}.
End DummyRecord.

Definition api_generate_dummy (delta_sea delta_wind : Q) (now : Z) (w : World)
  : DummyRecord.t * World :=
  let '(vals, w1) := generate_sensor_values delta_sea delta_wind w in
  let '(ts, w2) :=
    insert_record (Vals.sea_level vals) (Vals.wind_speed vals) now w1 in
  let '(sea_s, wind_s, overall) :=
    compute_status (Vals.sea_level vals) (Vals.wind_speed vals) in
  (DummyRecord.mk (Vals.sea_level vals) (Vals.wind_speed vals) ts
                  sea_s wind_s overall, w2).

(** One turn of the loop of [_dummy_loop]: the state it leaves and the
    number of seconds it then sleeps.  The draws are used only when dummy
    mode is enabled. *)
Definition _dummy_loop_iteration (delta_sea delta_wind : Q) (now : Z)
           (w : World) : Z * World :=
  let enabled := dummy_mode_enabled w in
  let w1 :=
    if enabled then
      let '(vals, w') := generate_sensor_values delta_sea delta_wind w in
      snd (insert_record (Vals.sea_level vals) (Vals.wind_speed vals) now w')
    else w in
  let interval := Settings.data_interval (settings w1) in
  (interval, w1).

(** A cell handed to [csv.writer]. *)
Inductive Cell :=
| CInt (z : Z)
| CFloat (q : Q)
| CTime (ts : Z)
| CStr (s : string).

Definition csv_header : list Cell :=
  map CStr ["id"; "sea_level"; "wind_speed"; "timestamp";
            "sea_status"; "wind_status"; "overall_status"]%string.

(** [api_export_csv]: the rows written, the header first; the rendering of
    the cells as text is the csv module's. *)
Definition api_export_csv (w : World) : list (list Cell) :=
  let rows := sensor_data w in
  csv_header
  :: map (fun r =>
            let d := row_to_dict r in
            [CInt (RowDict.id d); CFloat (RowDict.sea_level d);
             CFloat (RowDict.wind_speed d); CTime (RowDict.timestamp d);
             CStr (status_str (RowDict.sea_status d));
             CStr (status_str (RowDict.wind_status d));
             CStr (status_str (RowDict.overall_status d))]) rows.


(** The columns of a data line of the export, read back. *)
Definition csv_line_row (line : list Cell) : option Row.t :=
  match line with
  | [CInt i; CFloat s; CFloat v; CTime t; CStr _; CStr _; CStr _] =>
      Some (Row.mk i s v t)
  | _ => None
  end.

(** What can happen to the process state: a request on one of the routes
    or a turn of the background loop, each with its inputs. *)
Inductive Event :=
| EvPostSensorData (data : gmap string Q) (now : Z)
| EvGenerateDummy (delta_sea delta_wind : Q) (now : Z)
| EvToggleDummy
| EvUpdateSettings (data : gmap string Z)
| EvDummyLoop (delta_sea delta_wind : Q) (now : Z)
| EvRead.

(** The state after an event; [EvRead] stands for the routes that only
    read (latest, history, prediction, export, dummy-status, settings). *)
Definition step (w : World) (e : Event) : World :=
  match e with
  | EvPostSensorData data now => snd (post_sensor_data data now w)
  | EvGenerateDummy ds dw now => snd (api_generate_dummy ds dw now w)
  | EvToggleDummy => snd (api_toggle_dummy w)
  | EvUpdateSettings data => snd (api_update_settings data w)
  | EvDummyLoop ds dw now => snd (_dummy_loop_iteration ds dw now w)
  | EvRead => w
  end.

(** Events handled one after another. *)
Definition run (events : list Event) (w : World) : World :=
  fold_left step events w.

Definition settings_in_bounds (s : Settings.t) : Prop :=
  (1 <= Settings.data_interval s <= 60)%Z /\
  (10 <= Settings.chart_points s <= 500)%Z /\
  (1 <= Settings.prediction_days s <= 30)%Z.

(** The ids of the table are 1, 2, ..., n in this order. *)
Definition ids_sequential (rows : list Row.t) : Prop :=
  map Row.id rows = map Z.of_nat (seq 1 (length rows)).

Definition world_invariant (w : World) : Prop :=
  settings_in_bounds (settings w) /\
  in_bounds (Vals.sea_level (_prev w)) (Vals.wind_speed (_prev w)) /\
  ids_sequential (sensor_data w).

Definition row_in_bounds (r : Row.t) : Prop :=
  in_bounds (Row.sea_level r) (Row.wind_speed r).

Definition is_post (e : Event) : bool :=
  match e with EvPostSensorData _ _ => true | _ => false end.

(* ------------------------------------------------------------------ *)
(** ** Facts about the built-ins *)
(* ------------------------------------------------------------------ *)

Module PyFacts.

Lemma ltb_true (x y : Q) : Py.ltb x y = true <-> x < y.
Proof.
  unfold Py.ltb. destruct (Qlt_le_dec x y) as [H | H]; split; intro G;
    try reflexivity; try assumption; try discriminate.
  exfalso. lra.
Qed.

Lemma ltb_false (x y : Q) : Py.ltb x y = false <-> y <= x.
Proof.
  unfold Py.ltb. destruct (Qlt_le_dec x y) as [H | H]; split; intro G;
    try reflexivity; try assumption; try discriminate.
  exfalso. lra.
Qed.

Lemma leb_true (x y : Q) : Py.leb x y = true <-> x <= y.
Proof.
  unfold Py.leb. destruct (Qlt_le_dec y x) as [H | H]; split; intro G;
    try reflexivity; try assumption; try discriminate.
  exfalso. lra.
Qed.

Lemma leb_false (x y : Q) : Py.leb x y = false <-> y < x.
Proof.
  unfold Py.leb. destruct (Qlt_le_dec y x) as [H | H]; split; intro G;
    try reflexivity; try assumption; try discriminate.
  exfalso. lra.
Qed.



(** Case analysis on a comparison, with the order fact in the context. *)
Ltac cases_cmp :=
  repeat match goal with
  | |- context [Py.ltb ?a ?b] =>
      let H := fresh "Hlt" in
      destruct (Py.ltb a b) eqn:H;
      [apply ltb_true in H | apply ltb_false in H]
  | |- context [Py.leb ?a ?b] =>
      let H := fresh "Hle" in
      destruct (Py.leb a b) eqn:H;
      [apply leb_true in H | apply leb_false in H]
  end.

Lemma clamp_bounds (v lo hi : Q) :
  lo <= hi -> lo <= _clamp v lo hi <= hi.
Proof.
  intro H. unfold _clamp, Py.max, Py.min. cases_cmp; lra.
Qed.

(** An integer below (above) [y] is below (above) its rounding. *)
Lemma round_half_even_lower (m : Z) (y : Q) :
  inject_Z m <= y -> (m <= Py.round_half_even y)%Z.
Proof.
  intro H. apply Qfloor_resp_le in H. rewrite Qfloor_Z in H.
  unfold Py.round_half_even.
  destruct (Qcompare _ _); try destruct (Z.even _); lia.
Qed.

Lemma round_half_even_upper (m : Z) (y : Q) :
  y <= inject_Z m -> (Py.round_half_even y <= m)%Z.
Proof.
  intro H. unfold Py.round_half_even.
  pose proof (Qfloor_le y) as Hf.
  assert (Hm : (Qfloor y <= m)%Z).
  { rewrite Zle_Qle. lra. }
  destruct (Z.eq_dec (Qfloor y) m) as [E | N].
  - assert (Hlt : y - inject_Z (Qfloor y) < 1 # 2).
    { rewrite E in *. lra. }
    destruct (Qcompare (y - inject_Z (Qfloor y)) (1 # 2)) eqn:C;
      [apply Qeq_alt in C | | apply Qgt_alt in C]; try lia; exfalso; lra.
  - destruct (Qcompare _ _); try destruct (Z.even _); lia.
Qed.

Lemma round2_lower (k : Z) (x : Q) :
  inject_Z k <= x -> inject_Z k <= Py.round x 2.
Proof.
  intro H. unfold Py.round. change (inject_Z (10 ^ 2)) with 100%Q.
  assert (Hk : (k * 100 <= Py.round_half_even (x * 100))%Z).
  { apply round_half_even_lower. rewrite inject_Z_mult.
    change (inject_Z 100) with 100%Q. lra. }
  rewrite Zle_Qle, inject_Z_mult in Hk.
  change (inject_Z 100) with 100%Q in Hk.
  apply Qle_shift_div_l; lra.
Qed.

Lemma round2_upper (k : Z) (x : Q) :
  x <= inject_Z k -> Py.round x 2 <= inject_Z k.
Proof.
  intro H. unfold Py.round. change (inject_Z (10 ^ 2)) with 100%Q.
  assert (Hk : (Py.round_half_even (x * 100) <= k * 100)%Z).
  { apply round_half_even_upper. rewrite inject_Z_mult.
    change (inject_Z 100) with 100%Q. lra. }
  rewrite Zle_Qle, inject_Z_mult in Hk.
  change (inject_Z 100) with 100%Q in Hk.
  apply Qle_shift_div_r; lra.
Qed.

End PyFacts.

(* ------------------------------------------------------------------ *)
(** ** Status classifier *)
(* ------------------------------------------------------------------ *)

Import PyFacts.

(** C3.  Per-metric thresholds of [compute_status]: the sea status is
    Normal exactly below 120, Warning exactly on [120, 180] and Danger
    exactly above 180; the wind status is Normal exactly below 10, Warning
    exactly on [10, 18] and Danger exactly above 18. *)
Theorem compute_status_thresholds (sea_level wind_speed : Q) :
  let '(sea_status, wind_status, _) := compute_status sea_level wind_speed in
  (sea_status = Normal <-> sea_level < 120) /\
  (sea_status = Warning <-> 120 <= sea_level <= 180) /\
  (sea_status = Danger <-> 180 < sea_level) /\
  (wind_status = Normal <-> wind_speed < 10) /\
  (wind_status = Warning <-> 10 <= wind_speed <= 18) /\
  (wind_status = Danger <-> 18 < wind_speed).
Proof.
  unfold compute_status. cases_cmp;
    repeat split; intros; try reflexivity; try discriminate; try lra.
Qed.





(* ------------------------------------------------------------------ *)
(** ** Linear regression *)
(* ------------------------------------------------------------------ *)

Section RegressionSums.

Lemma range_0_succ (k : nat) :
  Py.range 0 (Z.of_nat (S k)) = Py.range 0 (Z.of_nat k) ++ [Z.of_nat k].
Proof.
  unfold Py.range. rewrite !Z.sub_0_r, !Nat2Z.id.
  rewrite seq_S, map_app. reflexivity.
Qed.

Lemma sum_int_snoc (l : list Z) (x : Z) :
  Py.sum_int (l ++ [x]) = (Py.sum_int l + x)%Z.
Proof. unfold Py.sum_int. rewrite fold_left_app. reflexivity. Qed.

(** Gauss: the sum of [range(n)], doubled. *)
Lemma lr_sx_closed (k : nat) :
  (2 * lr_sx (Z.of_nat k) = Z.of_nat k * (Z.of_nat k - 1))%Z.
Proof.
  unfold lr_sx. induction k as [| k IH].
  - reflexivity.
  - rewrite range_0_succ, sum_int_snoc. lia.
Qed.

(** The sum of the squares of [range(n)], times six. *)
Lemma lr_sxx_closed (k : nat) :
  (6 * lr_sxx (Z.of_nat k)
   = (Z.of_nat k - 1) * Z.of_nat k * (2 * Z.of_nat k - 1))%Z.
Proof.
  unfold lr_sxx. induction k as [| k IH].
  - reflexivity.
  - rewrite range_0_succ, map_app. cbn [map]. rewrite sum_int_snoc. lia.
Qed.

Lemma lr_denom_closed (k : nat) :
  (12 * lr_denom (Z.of_nat k)
   = Z.of_nat k * Z.of_nat k * (Z.of_nat k - 1) * (Z.of_nat k + 1))%Z.
Proof.
  unfold lr_denom.
  pose proof (lr_sx_closed k) as Hx. pose proof (lr_sxx_closed k) as Hxx.
  set (n := Z.of_nat k) in *. set (a := lr_sx n) in *. set (b := lr_sxx n) in *.
  replace (12 * (n * b - a * a))%Z
    with (2 * n * (6 * b) - 3 * ((2 * a) * (2 * a)))%Z by ring.
  rewrite Hx, Hxx. ring.
Qed.

Lemma lr_denom_pos (k : nat) : (2 <= k)%nat -> (0 < lr_denom (Z.of_nat k))%Z.
Proof.
  intro H. pose proof (lr_denom_closed k) as E.
  assert (0 < Z.of_nat k * Z.of_nat k * (Z.of_nat k - 1) * (Z.of_nat k + 1))%Z
    by (repeat apply Z.mul_pos_pos; lia).
  lia.
Qed.

End RegressionSums.

Lemma py_div_nonzero (a : Q) (z : Z) :
  z <> 0%Z -> Py.div a (inject_Z z) = Some (a / inject_Z z).
Proof.
  intro H. unfold Py.div.
  destruct (Qeq_bool (inject_Z z) 0) eqn:E; [| reflexivity].
  apply Qeq_bool_eq in E. exfalso. apply H.
  unfold Qeq in E. cbn in E. lia.
Qed.

(** The value [_linear_regression] returns on two samples or more. *)
Lemma _linear_regression_general (ys : list Q) :
  (2 <= length ys)%nat ->
  let n := Z.of_nat (length ys) in
  let sx := lr_sx n in
  let sy := Py.sum ys in
  let sxy := Py.sum (map (fun '(i, y) => inject_Z i * y) (Py.enumerate ys)) in
  let slope := (inject_Z n * sxy - inject_Z sx * sy) / inject_Z (lr_denom n) in
  let intercept := (sy - slope * inject_Z sx) / inject_Z n in
  _linear_regression ys = Some (slope, intercept).
Proof.
  intros H n sx sy sxy slope intercept.
  pose proof (lr_denom_pos (length ys) H) as Hd. fold n in Hd.
  unfold _linear_regression, _linear_regression_with. fold n.
  destruct (n <? 2)%Z eqn:E2; [apply Z.ltb_lt in E2; lia |].
  change (n * lr_sxx n - lr_sx n * lr_sx n)%Z with (lr_denom n).
  destruct (lr_denom n =? 0)%Z eqn:E0; [apply Z.eqb_eq in E0; lia |].
  rewrite py_div_nonzero by lia. cbn [mbind option_bind].
  rewrite py_div_nonzero by lia. reflexivity.
Qed.

(** C10.  Division safety of [_linear_regression]: on a list of n >= 2
    values the denominator n*sxx - sx*sx is strictly positive, so the
    [denom == 0] branch is not taken and both divisions are defined, the
    result being the slope and intercept of the general branch; on a list
    of fewer than 2 values the result is slope 0 with intercept [ys[0]]
    (0 for the empty list) whatever the division does, that is, no
    division is performed. *)
Theorem _linear_regression_division_safe (ys : list Q) :
  let n := Z.of_nat (length ys) in
  ((2 <= n)%Z ->
     let sx := lr_sx n in
     let sy := Py.sum ys in
     let sxy := Py.sum (map (fun '(i, y) => inject_Z i * y) (Py.enumerate ys)) in
     let denom := (n * lr_sxx n - sx * sx)%Z in
     let slope := (inject_Z n * sxy - inject_Z sx * sy) / inject_Z denom in
     let intercept := (sy - slope * inject_Z sx) / inject_Z n in
     (0 < denom)%Z /\ (denom =? 0)%Z = false /\
     ~ inject_Z denom == 0 /\ ~ inject_Z n == 0 /\
     _linear_regression ys = Some (slope, intercept)) /\
  ((n < 2)%Z ->
     forall fdiv : Q -> Q -> option Q,
       _linear_regression_with fdiv ys
       = Some (0, match ys with y0 :: _ => y0 | [] => 0 end)).
Proof.
  intro n. split.
  - intros Hn sx sy sxy denom slope intercept.
    assert (Hlen : (2 <= length ys)%nat) by lia.
    pose proof (lr_denom_pos (length ys) Hlen) as Hd.
    change (lr_denom (Z.of_nat (length ys))) with denom in Hd.
    repeat split.
    + exact Hd.
    + apply Z.eqb_neq. lia.
    + change 0 with (inject_Z 0). rewrite inject_Z_injective. lia.
    + change 0 with (inject_Z 0). rewrite inject_Z_injective. lia.
    + exact (_linear_regression_general ys Hlen).
  - intros Hn fdiv. unfold _linear_regression_with. fold n.
    destruct (n <? 2)%Z eqn:E; [reflexivity | apply Z.ltb_ge in E; lia].
Qed.

Lemma _linear_regression_division_safe_witness :
  _linear_regression [100; 110] = Some (10 / 1, (210 - 10 / 1 * 1) / 2) /\
  _linear_regression_with (fun _ _ => None) [42] = Some (0, 42).
Proof.
  split.
  - apply (proj1 (_linear_regression_division_safe [100; 110])).
    vm_compute. discriminate.
  - apply (proj2 (_linear_regression_division_safe [42])).
    reflexivity.
Defined.

(* ------------------------------------------------------------------ *)
(** ** Forecast *)
(* ------------------------------------------------------------------ *)

Lemma range_1_succ (d : Z) :
  Py.range 1 (d + 1) = map Z.of_nat (seq 1 (Z.to_nat d)).
Proof.
  unfold Py.range. replace (d + 1 - 1)%Z with d by lia.
  rewrite <- seq_shift, map_map. apply map_ext. intro i. lia.
Qed.

Section ForecastFacts.

Variable sin : Q -> Q.

Lemma window_length (w : World) :
  length (window w) = Nat.min 200 (length (sensor_data w)).
Proof.
  unfold window. rewrite length_rev, length_firstn, length_rev. reflexivity.
Qed.

(** With fewer than two rows the handler answers the error body. *)
Lemma api_prediction_insufficient (now : Z) (w : World) :
  (length (sensor_data w) < 2)%nat ->
  api_prediction sin now w
  = Some (PredError "not enough data for prediction", 200%Z).
Proof.
  intro H. unfold api_prediction.
  pose proof (window_length w) as L. unfold window in L.
  rewrite length_rev in L. rewrite L.
  destruct (Z.of_nat _ <? 2)%Z eqn:E; [reflexivity |].
  apply Z.ltb_ge in E. lia.
Qed.

(** With two rows or more the handler answers one entry per day of
    [range(1, days + 1)], computed from the two fitted lines. *)
Lemma api_prediction_enough (now : Z) (w : World) :
  (2 <= length (sensor_data w))%nat ->
  exists sea_slope sea_int wind_slope wind_int : Q,
    _linear_regression (map Row.sea_level (window w))
      = Some (sea_slope, sea_int) /\
    _linear_regression (map Row.wind_speed (window w))
      = Some (wind_slope, wind_int) /\
    api_prediction sin now w
    = Some (PredList
              (map (predict_day sin sea_slope sea_int wind_slope wind_int
                      (Z.of_nat (length (window w))) now)
                   (Py.range 1 (Settings.prediction_days (settings w) + 1))),
            200%Z).
Proof.
  intro H. pose proof (window_length w) as L.
  assert (Hw : (2 <= length (window w))%nat) by lia.
  pose proof (_linear_regression_general (map Row.sea_level (window w))) as Hs.
  pose proof (_linear_regression_general (map Row.wind_speed (window w))) as Hv.
  rewrite length_map in Hs, Hv. specialize (Hs Hw). specialize (Hv Hw).
  cbv zeta in Hs, Hv.
  eexists _, _, _, _. split; [exact Hs |]. split; [exact Hv |].
  unfold api_prediction. fold (window w).
  assert (Hl : length (firstn 200 (rev (sensor_data w))) = length (window w)).
  { unfold window. rewrite length_rev. reflexivity. }
  rewrite Hl.
  destruct (Z.of_nat (length (window w)) <? 2)%Z eqn:E;
    [apply Z.ltb_lt in E; lia |].
  rewrite Hs. cbn [mbind option_bind]. rewrite Hv. cbn [mbind option_bind].
  rewrite length_map. reflexivity.
Qed.

(** The sea level and wind speed of an entry lie within the clamping
    bounds. *)
Lemma predict_day_bounds (sea_slope sea_int wind_slope wind_int : Q)
      (n now day : Z) :
  let p := predict_day sin sea_slope sea_int wind_slope wind_int n now day in
  50 <= Prediction.sea_level p <= 250 /\ 1 <= Prediction.wind_speed p <= 25.
Proof.
  unfold predict_day.
  destruct (compute_status _ _) as [[s v] o]. cbn.
  unfold Py.max, Py.min. split; cases_cmp; lra.
Qed.

Lemma predict_day_day (sea_slope sea_int wind_slope wind_int : Q)
      (n now day : Z) :
  Prediction.day
    (predict_day sin sea_slope sea_int wind_slope wind_int n now day) = day.
Proof.
  unfold predict_day. destruct (compute_status _ _) as [[s v] o]. reflexivity.
Qed.

(** A projection at or above both upper bounds is reported as 250 and
    25, Danger throughout. *)
Lemma predict_day_saturated (sea_slope sea_int wind_slope wind_int : Q)
      (n now day : Z) :
  250 <= sea_int + sea_slope * future_idx n day
         + 15 * sin (inject_Z day * 0.9) ->
  25 <= wind_int + wind_slope * future_idx n day
        + 3 * sin (inject_Z day * 1.1 + 0.5) ->
  predict_day sin sea_slope sea_int wind_slope wind_int n now day
  = Prediction.mk day ((now + day * 86400) / 86400)%Z 250 25
                  Danger Danger Danger.
Proof.
  intros Hs Hv. unfold predict_day.
  apply (round2_lower 250) in Hs. apply (round2_lower 25) in Hv.
  change (inject_Z 250) with 250%Q in Hs. change (inject_Z 25) with 25%Q in Hv.
  apply ltb_false in Hs. apply ltb_false in Hv.
  cbv zeta. unfold Py.min. rewrite Hs, Hv. reflexivity.
Qed.

End ForecastFacts.

(** The handler run on two posted samples. *)
Example api_prediction_two_rows :
  api_prediction sin_taylor 0
    (snd (post_sensor_data {[ "sea_level"%string := 110; "wind_speed"%string := 6 ]} 3
       (snd (post_sensor_data {[ "sea_level"%string := 100; "wind_speed"%string := 5 ]} 0
          (mkWorld true (Vals.mk 130 10) (Settings.mk 3 50 1) [])))))
  = Some (PredList [Prediction.mk 1 1 250 25 Danger Danger Danger], 200%Z).
Proof. vm_compute. reflexivity. Qed.

(** C2.  Contract of [api_prediction].  When the table holds at least 2
    rows the handler returns, with status 200, a list with one entry per
    day whose days are 1, 2, ..., d in this order, d being the
    prediction_days setting (so exactly d entries).  When it holds fewer
    than 2 rows (in particular exactly 1) the handler returns the body
    "not enough data for prediction", also with status 200 and without
    raising, and no entry is produced. *)
Theorem api_prediction_contract (sin : Q -> Q) (now : Z) (w : World) :
  let d := Settings.prediction_days (settings w) in
  ((2 <= length (sensor_data w))%nat ->
     exists l : list Prediction.t,
       api_prediction sin now w = Some (PredList l, 200%Z) /\
       map Prediction.day l = map Z.of_nat (seq 1 (Z.to_nat d)) /\
       length l = Z.to_nat d /\
       ((0 <= d)%Z -> Z.of_nat (length l) = d)) /\
  ((length (sensor_data w) < 2)%nat ->
     api_prediction sin now w
     = Some (PredError "not enough data for prediction", 200%Z)).
Proof.
  intro d. split.
  - intro H.
    destruct (api_prediction_enough sin now w H)
      as (ss & si & ws & wi & _ & _ & E).
    eexists. split; [exact E |]. fold d.
    assert (Hday : map Prediction.day
                     (map (predict_day sin ss si ws wi
                             (Z.of_nat (length (window w))) now)
                          (Py.range 1 (d + 1)))
                   = map Z.of_nat (seq 1 (Z.to_nat d))).
    { rewrite map_map, <- range_1_succ.
      erewrite map_ext; [apply map_id |].
      intro a. apply predict_day_day. }
    split; [exact Hday |].
    assert (Hlen : length (map (predict_day sin ss si ws wi
                                  (Z.of_nat (length (window w))) now)
                               (Py.range 1 (d + 1))) = Z.to_nat d).
    { rewrite length_map, range_1_succ, length_map, length_seq. reflexivity. }
    split; [exact Hlen |]. intro Hd. rewrite Hlen. lia.
  - apply api_prediction_insufficient.
Qed.

Lemma api_prediction_contract_witness :
  (exists l : list Prediction.t,
     api_prediction sin_taylor 0
       (mkWorld true (Vals.mk 130 10) (Settings.mk 3 50 7)
                [Row.mk 1 100 5 0; Row.mk 2 110 6 3])
     = Some (PredList l, 200%Z) /\
     map Prediction.day l = [1; 2; 3; 4; 5; 6; 7]%Z /\
     length l = 7%nat /\
     ((0 <= 7)%Z -> Z.of_nat (length l) = 7%Z)) /\
  api_prediction sin_taylor 0
    (mkWorld true (Vals.mk 130 10) (Settings.mk 3 50 7) [Row.mk 1 100 5 0])
  = Some (PredError "not enough data for prediction", 200%Z).
Proof.
  split.
  - apply (proj1 (api_prediction_contract sin_taylor 0
                    (mkWorld true (Vals.mk 130 10) (Settings.mk 3 50 7)
                             [Row.mk 1 100 5 0; Row.mk 2 110 6 3]))).
    cbn. lia.
  - apply (proj2 (api_prediction_contract sin_taylor 0
                    (mkWorld true (Vals.mk 130 10) (Settings.mk 3 50 7)
                             [Row.mk 1 100 5 0]))).
    cbn. lia.
Defined.

(** C1.  End-to-end scenario.  The table holds exactly the two samples
    (100, 5) and (110, 6), at indices 0 and 1, and prediction_days is 1;
    data_interval, chart_points and the rest of the state are arbitrary.
    Then: a day has 28800 steps and the future index is 2 + 1 * 28800 =
    28802; the sea fit has slope 10 and intercept 100; the projected line
    value is 100 + 10 * 28802 = 288120; the entry returned for day 1 has
    sea level 250 (the clamp) and sea status Danger; and a sea level of
    250 is classified Danger whatever the wind speed. *)
Theorem api_prediction_two_samples_scenario
        (sin : Q -> Q) (Hsin : forall x : Q, -1 <= sin x <= 1)
        (flag : bool) (prev : Vals.t) (data_interval chart_points : Z)
        (id0 id1 t0 t1 now : Z) :
  let w := mkWorld flag prev (Settings.mk data_interval chart_points 1)
                   [Row.mk id0 100 5 t0; Row.mk id1 110 6 t1] in
  steps_per_day == 28800 /\
  future_idx 2 1 == 28802 /\
  (exists slope intercept : Q,
      _linear_regression [100; 110] = Some (slope, intercept) /\
      slope == 10 /\ intercept == 100 /\
      intercept + slope * future_idx 2 1 == 288120) /\
  (forall x : Q, 288120 - 15 <= x -> Py.max 50 (Py.min 250 (Py.round x 2)) = 250) /\
  (exists p : Prediction.t,
      api_prediction sin now w = Some (PredList [p], 200%Z) /\
      Prediction.day p = 1%Z /\
      Prediction.sea_level p = 250 /\
      Prediction.sea_status p = Danger) /\
  (forall wind_speed : Q,
      fst (fst (compute_status 250 wind_speed)) = Danger).
Proof.
  intro w.
  assert (Hsteps : steps_per_day == 28800) by reflexivity.
  assert (Hidx : future_idx 2 1 == 28802) by reflexivity.
  assert (Efit_sea : _linear_regression [100; 110]
                     = Some (10 # 1, 200 # 2)) by reflexivity.
  assert (Efit_wind : _linear_regression [5; 6]
                      = Some (1 # 1, 10 # 2)) by reflexivity.
  split; [exact Hsteps |]. split; [exact Hidx |].
  split.
  { exists (10 # 1), (200 # 2). split; [exact Efit_sea |].
    split; [reflexivity |]. split; reflexivity. }
  split.
  { intros x Hx. assert (H250 : inject_Z 250 <= x).
    { change (inject_Z 250) with 250%Q. lra. }
    apply round2_lower in H250. change (inject_Z 250) with 250%Q in H250.
    apply ltb_false in H250. unfold Py.min. rewrite H250. reflexivity. }
  split.
  { exists (Prediction.mk 1 ((now + 1 * 86400) / 86400)%Z 250 25
                          Danger Danger Danger).
    split; [| split; [| split]]; try reflexivity.
    unfold api_prediction, w.
    cbn [sensor_data settings Settings.prediction_days rev firstn app length
         map Row.sea_level Row.wind_speed Z.of_nat Pos.of_succ_nat
         Pos.succ Z.ltb Z.compare Pos.compare Pos.compare_cont].
    rewrite Efit_sea. cbn [mbind option_bind].
    rewrite Efit_wind. cbn [mbind option_bind].
    change (Py.range 1 (1 + 1)) with [1%Z]. cbn [map].
    rewrite predict_day_saturated; [reflexivity | |].
    - pose proof (Hsin (inject_Z 1 * 0.9)) as B. rewrite Hidx. lra.
    - pose proof (Hsin (inject_Z 1 * 1.1 + 0.5)) as B. rewrite Hidx. lra. }
  intro wind_speed. reflexivity.
Qed.

Lemma sin_taylor_bound (x : Q) : -1 <= sin_taylor x <= 1.
Proof. unfold sin_taylor. apply clamp_bounds. lra. Qed.

Lemma api_prediction_two_samples_scenario_witness :
  exists p : Prediction.t,
    api_prediction sin_taylor 0
      (mkWorld true (Vals.mk 130 10) (Settings.mk 60 50 1)
               [Row.mk 1 100 5 0; Row.mk 2 110 6 60])
    = Some (PredList [p], 200%Z) /\
    Prediction.day p = 1%Z /\
    Prediction.sea_level p = 250 /\
    Prediction.sea_status p = Danger.
Proof.
  pose proof (api_prediction_two_samples_scenario
                sin_taylor sin_taylor_bound true (Vals.mk 130 10)
                60 50 1 2 0 60 0) as H.
  cbv zeta in H. apply H.
Defined.

(** ** The forecast and the clock *)

(** The date of an entry depends on the clock through its day number. *)
Lemma predict_day_same_date (sin : Q -> Q)
      (sea_slope sea_int wind_slope wind_int : Q) (n now1 now2 day : Z) :
  (now1 / 86400 = now2 / 86400)%Z ->
  predict_day sin sea_slope sea_int wind_slope wind_int n now1 day
  = predict_day sin sea_slope sea_int wind_slope wind_int n now2 day.
Proof.
  intro H. unfold predict_day.
  rewrite !Z.div_add by lia. rewrite H. reflexivity.
Qed.

(** [api_prediction] reads the world through the window and the
    prediction_days setting only. *)
Lemma api_prediction_unfold (sin : Q -> Q) (now : Z) (w : World) :
  api_prediction sin now w =
  if (Z.of_nat (length (window w)) <? 2)%Z then
    Some (PredError "not enough data for prediction", 200%Z)
  else
    '(sea_slope, sea_int) ← _linear_regression (map Row.sea_level (window w));
    '(wind_slope, wind_int) ← _linear_regression (map Row.wind_speed (window w));
    Some (PredList
            (map (predict_day sin sea_slope sea_int wind_slope wind_int
                    (Z.of_nat (length (window w))) now)
                 (Py.range 1 (Settings.prediction_days (settings w) + 1))),
          200%Z).
Proof.
  unfold api_prediction. fold (window w).
  replace (length (firstn 200 (rev (sensor_data w)))) with (length (window w))
    by (unfold window; apply length_rev).
  rewrite length_map. reflexivity.
Qed.

(** C7, as the code has it.  The output of [api_prediction] is a function
    of the sample window, of prediction_days and of the current calendar
    date: two calls that see the same window and setting on the same day
    return identical results, and two calls at any two times return
    results that agree once the dates are left out.  Nothing else (no
    random draw, no other part of the state) enters the forecast. *)
Theorem api_prediction_deterministic
        (sin : Q -> Q) (now1 now2 : Z) (w1 w2 : World) :
  window w1 = window w2 ->
  Settings.prediction_days (settings w1) = Settings.prediction_days (settings w2) ->
  ((now1 / 86400 = now2 / 86400)%Z ->
     api_prediction sin now1 w1 = api_prediction sin now2 w2) /\
  without_dates (api_prediction sin now1 w1)
  = without_dates (api_prediction sin now2 w2).
Proof.
  intros Hw Hd. rewrite !api_prediction_unfold, Hw, Hd.
  destruct (Z.of_nat (length (window w2)) <? 2)%Z; [split; reflexivity |].
  destruct (_linear_regression (map Row.sea_level (window w2)))
    as [[ss si] |]; [| split; reflexivity].
  destruct (_linear_regression (map Row.wind_speed (window w2)))
    as [[ws wi] |]; [| split; reflexivity].
  cbn [mbind option_bind]. split.
  - intro Hn. do 2 f_equal. f_equal. apply map_ext. intro day.
    apply predict_day_same_date. exact Hn.
  - cbn [without_dates]. do 2 f_equal. rewrite !map_map. apply map_ext.
    intro day. unfold predict_day.
    destruct (compute_status _ _) as [[s v] o]. reflexivity.
Qed.

Lemma api_prediction_deterministic_witness :
  api_prediction sin_taylor 10
    (mkWorld true (Vals.mk 130 10) (Settings.mk 3 50 7)
             [Row.mk 1 100 5 0; Row.mk 2 110 6 3])
  = api_prediction sin_taylor 86399
      (mkWorld false (Vals.mk 99 9) (Settings.mk 60 10 7)
               [Row.mk 1 100 5 0; Row.mk 2 110 6 3]).
Proof.
  apply (api_prediction_deterministic sin_taylor 10 86399
           (mkWorld true (Vals.mk 130 10) (Settings.mk 3 50 7)
                    [Row.mk 1 100 5 0; Row.mk 2 110 6 3])
           (mkWorld false (Vals.mk 99 9) (Settings.mk 60 10 7)
                    [Row.mk 1 100 5 0; Row.mk 2 110 6 3]));
    reflexivity.
Defined.

(** C7, as stated, fails: the same window and the same prediction_days,
    asked at midnight and one day later, give entries with different
    dates. *)
Lemma api_prediction_clock_counterexample :
  let w := mkWorld true (Vals.mk 130 10) (Settings.mk 3 50 1)
                   [Row.mk 1 100 5 0; Row.mk 2 110 6 3] in
  api_prediction sin_taylor 0 w
  = Some (PredList [Prediction.mk 1 1 250 25 Danger Danger Danger], 200%Z) /\
  api_prediction sin_taylor 86400 w
  = Some (PredList [Prediction.mk 1 2 250 25 Danger Danger Danger], 200%Z) /\
  api_prediction sin_taylor 0 w <> api_prediction sin_taylor 86400 w.
Proof.
  intro w.
  assert (E0 : api_prediction sin_taylor 0 w
               = Some (PredList [Prediction.mk 1 1 250 25 Danger Danger Danger],
                       200%Z)) by (vm_compute; reflexivity).
  assert (E1 : api_prediction sin_taylor 86400 w
               = Some (PredList [Prediction.mk 1 2 250 25 Danger Danger Danger],
                       200%Z)) by (vm_compute; reflexivity).
  split; [exact E0 |]. split; [exact E1 |].
  rewrite E0, E1. intro H. discriminate H.
Qed.

(* ------------------------------------------------------------------ *)
(** ** Generator, ingest and bounds *)
(* ------------------------------------------------------------------ *)

Lemma generate_sensor_values_bounds (delta_sea delta_wind : Q) (w : World) :
  let r := generate_sensor_values delta_sea delta_wind w in
  in_bounds (Vals.sea_level (fst r)) (Vals.wind_speed (fst r)) /\
  in_bounds (Vals.sea_level (_prev (snd r))) (Vals.wind_speed (_prev (snd r))).
Proof.
  unfold generate_sensor_values, in_bounds. cbn.
  pose proof (clamp_bounds (Vals.sea_level (_prev w) + delta_sea) 50 250) as Hs.
  pose proof (clamp_bounds (Vals.wind_speed (_prev w) + delta_wind) 1 25) as Hw.
  assert (Hs' := Hs ltac:(lra)). assert (Hw' := Hw ltac:(lra)).
  clear Hs Hw. destruct Hs' as [Hs1 Hs2], Hw' as [Hw1 Hw2].
  repeat split; try assumption.
  - apply (round2_lower 50). exact Hs1.
  - apply (round2_upper 250). exact Hs2.
  - apply (round2_lower 1). exact Hw1.
  - apply (round2_upper 25). exact Hw2.
Qed.

(** C5.  Bounds by clamping.  Whatever the generator state and the two
    random draws (in particular for draws in [-8, 8] and [-3, 3]), the
    sample [generate_sensor_values] returns has its sea level in
    [50, 250] and its wind speed in [1, 25], and so has the state it
    leaves.  Every entry [api_prediction] returns has its two values in
    the same bounds.  [post_sensor_data] stores the posted values as they
    are, with no clamping: the new row carries exactly the posted sea
    level and wind speed, whatever they are. *)
Theorem bounds_by_clamping :
  (forall (delta_sea delta_wind : Q) (w : World),
      let r := generate_sensor_values delta_sea delta_wind w in
      in_bounds (Vals.sea_level (fst r)) (Vals.wind_speed (fst r)) /\
      in_bounds (Vals.sea_level (_prev (snd r)))
                (Vals.wind_speed (_prev (snd r)))) /\
  (forall (sin : Q -> Q) (now : Z) (w : World),
      (2 <= length (sensor_data w))%nat ->
      exists l : list Prediction.t,
        api_prediction sin now w = Some (PredList l, 200%Z) /\
        Forall (fun p => in_bounds (Prediction.sea_level p)
                                   (Prediction.wind_speed p)) l) /\
  (forall (data : gmap string Q) (now : Z) (w : World) (sea wind : Q),
      data !! "sea_level"%string = Some sea ->
      data !! "wind_speed"%string = Some wind ->
      post_sensor_data data now w
      = ((PostOk now, 201%Z),
         mkWorld (dummy_mode_enabled w) (_prev w) (settings w)
                 (sensor_data w
                  ++ [Row.mk (Z.of_nat (length (sensor_data w)) + 1)
                             sea wind now]))).
Proof.
  split; [exact generate_sensor_values_bounds |]. split.
  - intros sin now w H.
    destruct (api_prediction_enough sin now w H)
      as (ss & si & ws & wi & _ & _ & E).
    eexists. split; [exact E |].
    apply Forall_map. apply Forall_forall. intros day _.
    apply predict_day_bounds.
  - intros data now w sea wind Hs Hw. unfold post_sensor_data.
    rewrite Hs, Hw. reflexivity.
Qed.

Lemma bounds_by_clamping_witness :
  (exists l : list Prediction.t,
      api_prediction sin_taylor 0
        (mkWorld true (Vals.mk 130 10) (Settings.mk 3 50 7)
                 [Row.mk 1 100 5 0; Row.mk 2 110 6 3])
      = Some (PredList l, 200%Z) /\
      Forall (fun p => in_bounds (Prediction.sea_level p)
                                 (Prediction.wind_speed p)) l) /\
  post_sensor_data
    {[ "sea_level"%string := 1000; "wind_speed"%string := -4 ]} 7 initial_world
  = ((PostOk 7, 201%Z),
     mkWorld true (Vals.mk 130 10) (Settings.mk 3 50 7) [Row.mk 1 1000 (-4) 7]).
Proof.
  destruct bounds_by_clamping as (_ & Hf & Hp). split.
  - apply Hf. cbn. lia.
  - apply (Hp {[ "sea_level"%string := 1000; "wind_speed"%string := -4 ]}
              7%Z initial_world 1000 (-4)); reflexivity.
Defined.

(** C8, as the code has it.  [generate_sensor_values] stores the clamped
    values, not rounded, in [_prev] and returns them rounded to 2
    decimals: the returned pair is the rounding of the stored pair, the
    rest of the state is untouched, and the next call walks on from the
    stored (unrounded) values. *)
Theorem generate_sensor_values_state (delta_sea delta_wind : Q) (w : World) :
  let r := generate_sensor_values delta_sea delta_wind w in
  let vals := fst r in
  let w' := snd r in
  _prev w' = Vals.mk (_clamp (Vals.sea_level (_prev w) + delta_sea) 50 250)
                     (_clamp (Vals.wind_speed (_prev w) + delta_wind) 1 25) /\
  vals = Vals.mk (Py.round (Vals.sea_level (_prev w')) 2)
                 (Py.round (Vals.wind_speed (_prev w')) 2) /\
  dummy_mode_enabled w' = dummy_mode_enabled w /\
  settings w' = settings w /\
  sensor_data w' = sensor_data w /\
  (forall delta_sea' delta_wind' : Q,
      _prev (snd (generate_sensor_values delta_sea' delta_wind' w'))
      = Vals.mk (_clamp (Vals.sea_level (_prev w') + delta_sea') 50 250)
                (_clamp (Vals.wind_speed (_prev w') + delta_wind') 1 25)).
Proof.
  cbv zeta. unfold generate_sensor_values. cbn. repeat split.
Qed.

(** C8, as stated, fails: from the initial state, with the draws 1/256
    and 0, the call returns the sea level 130 while [_prev] holds
    130 + 1/256. *)
Lemma generate_sensor_values_rounding_counterexample :
  let r := generate_sensor_values (1 # 256) 0 initial_world in
  Vals.sea_level (fst r) == 130 /\
  Vals.sea_level (_prev (snd r)) == 33281 # 256 /\
  ~ Vals.sea_level (_prev (snd r)) == Vals.sea_level (fst r) /\
  _prev (snd r) <> fst r.
Proof.
  cbv zeta.
  assert (E1 : Vals.sea_level
                 (fst (generate_sensor_values (1 # 256) 0 initial_world))
               == 130) by (vm_compute; reflexivity).
  assert (E2 : Vals.sea_level
                 (_prev (snd (generate_sensor_values (1 # 256) 0 initial_world)))
               == 33281 # 256) by (vm_compute; reflexivity).
  split; [exact E1 |]. split; [exact E2 |]. split.
  - rewrite E1, E2. intro H. vm_compute in H. discriminate H.
  - intro H. rewrite H in E2. rewrite E1 in E2.
    vm_compute in E2. discriminate E2.
Qed.

(* ------------------------------------------------------------------ *)
(** ** Settings *)
(* ------------------------------------------------------------------ *)

Lemma World_eta (w : World) :
  mkWorld (dummy_mode_enabled w) (_prev w) (settings w) (sensor_data w) = w.
Proof. destruct w. reflexivity. Qed.

(** C6.  [api_update_settings] changes the fields present in the payload
    and no other: a present field becomes its value clamped to the field's
    bounds ([1, 60], [10, 500], [1, 30]), an absent field keeps its prior
    value, the settings returned are the settings stored, and the rest of
    the state is untouched.  In particular a data_interval of 0 becomes 1,
    a chart_points of 1000 becomes 500, and the empty payload returns the
    current settings and changes nothing. *)
Theorem api_update_settings_clamps (data : gmap string Z) (w : World) :
  let s := settings w in
  let r := api_update_settings data w in
  let s' := fst r in
  settings (snd r) = s' /\
  dummy_mode_enabled (snd r) = dummy_mode_enabled w /\
  _prev (snd r) = _prev w /\
  sensor_data (snd r) = sensor_data w /\
  match data !! "data_interval"%string with
  | Some v => Settings.data_interval s' = Z.max 1 (Z.min 60 v) /\
              (1 <= Settings.data_interval s' <= 60)%Z
  | None => Settings.data_interval s' = Settings.data_interval s
  end /\
  match data !! "chart_points"%string with
  | Some v => Settings.chart_points s' = Z.max 10 (Z.min 500 v) /\
              (10 <= Settings.chart_points s' <= 500)%Z
  | None => Settings.chart_points s' = Settings.chart_points s
  end /\
  match data !! "prediction_days"%string with
  | Some v => Settings.prediction_days s' = Z.max 1 (Z.min 30 v) /\
              (1 <= Settings.prediction_days s' <= 30)%Z
  | None => Settings.prediction_days s' = Settings.prediction_days s
  end /\
  Settings.data_interval
    (fst (api_update_settings {[ "data_interval"%string := 0%Z ]} w)) = 1%Z /\
  Settings.chart_points
    (fst (api_update_settings {[ "chart_points"%string := 1000%Z ]} w)) = 500%Z /\
  api_update_settings ∅ w = (s, w).
Proof.
  cbv zeta. unfold api_update_settings.
  repeat split; try reflexivity;
    try (destruct (data !! "data_interval"%string),
                  (data !! "chart_points"%string),
                  (data !! "prediction_days"%string); cbn; lia).
  rewrite !lookup_empty. rewrite World_eta. reflexivity.
Qed.

(* ------------------------------------------------------------------ *)
(** ** Dummy mode *)
(* ------------------------------------------------------------------ *)

(** C9.  Toggling dummy mode twice restores the flag (and the whole
    state); each toggle answers the flag's value after the toggle, which
    is the negation of the value before; a status query after a toggle
    answers what the toggle answered, not the value before, and leaves
    the state as it is. *)
Theorem api_toggle_dummy_involution (w : World) :
  let r1 := api_toggle_dummy w in
  let r2 := api_toggle_dummy (snd r1) in
  dummy_mode_enabled (snd r2) = dummy_mode_enabled w /\
  snd r2 = w /\
  fst r1 = dummy_mode_enabled (snd r1) /\
  fst r1 = negb (dummy_mode_enabled w) /\
  fst r2 = dummy_mode_enabled (snd r2) /\
  fst (api_dummy_status (snd r1)) = fst r1 /\
  fst (api_dummy_status (snd r1)) <> dummy_mode_enabled w /\
  snd (api_dummy_status (snd r1)) = snd r1 /\
  fst (api_dummy_status (snd r2)) = fst r2.
Proof.
  cbv zeta. unfold api_toggle_dummy, api_dummy_status. cbn.
  rewrite Bool.negb_involutive. repeat split.
  - apply World_eta.
  - destruct (dummy_mode_enabled w); discriminate.
Qed.

(* ------------------------------------------------------------------ *)
(** ** Further properties of the generator *)
(* ------------------------------------------------------------------ *)

(** Settles the comparisons of the goal that the context decides. *)
Ltac decide_cmp :=
  repeat match goal with
  | |- context [Py.ltb ?a ?b] =>
      first [ rewrite (proj2 (ltb_true a b)) by lra
            | rewrite (proj2 (ltb_false a b)) by lra ]
  end.

(** X1.  [_clamp] projects onto [lo, hi] (for lo <= hi): the result lies
    in the interval, a value inside the interval is returned as it is,
    a value below comes out as lo and a value above as hi, and clamping
    twice is clamping once. *)
Theorem _clamp_projection (value lo hi : Q) :
  lo <= hi ->
  lo <= _clamp value lo hi <= hi /\
  (lo <= value <= hi -> _clamp value lo hi == value) /\
  (value <= lo -> _clamp value lo hi == lo) /\
  (hi <= value -> _clamp value lo hi == hi) /\
  _clamp (_clamp value lo hi) lo hi = _clamp value lo hi.
Proof.
  intro H. split; [apply clamp_bounds; exact H |].
  unfold _clamp, Py.max, Py.min.
  destruct (Qlt_le_dec value hi), (Qlt_le_dec lo value), (Qlt_le_dec lo hi);
    repeat split; intros; decide_cmp; try reflexivity; lra.
Qed.

Lemma _clamp_projection_witness :
  _clamp (_clamp 300 50 250) 50 250 = _clamp 300 50 250.
Proof.
  apply (_clamp_projection 300 50 250). vm_compute. discriminate.
Defined.






(* ------------------------------------------------------------------ *)
(** ** Further properties of the regression and the forecast *)
(* ------------------------------------------------------------------ *)











(** The window is the table cut to its last 200 rows. *)
Lemma window_skipn (w : World) :
  window w = skipn (length (sensor_data w) - 200) (sensor_data w).
Proof. unfold window. rewrite firstn_rev, rev_involutive. reflexivity. Qed.

(** X5.  Only the 200 newest rows enter the forecast: rows older than the
    last 200 can be changed or dropped without changing the answer of
    [api_prediction]. *)
Theorem api_prediction_newest_200
        (sin : Q -> Q) (now : Z) (flag : bool) (prev : Vals.t)
        (s : Settings.t) (older older' newest : list Row.t) :
  length newest = 200%nat ->
  api_prediction sin now (mkWorld flag prev s (older ++ newest))
  = api_prediction sin now (mkWorld flag prev s (older' ++ newest)).
Proof.
  intro H.
  assert (Hw : forall o : list Row.t,
             window (mkWorld flag prev s (o ++ newest)) = newest).
  { intro o. rewrite window_skipn. cbn [sensor_data].
    rewrite length_app, H.
    replace (length o + 200 - 200)%nat with (length o + 0)%nat by lia.
    rewrite skipn_app, Nat.add_0_r, skipn_all.
    replace (length o - length o)%nat with 0%nat by lia. reflexivity. }
  rewrite !api_prediction_unfold, !Hw. reflexivity.
Qed.

Lemma api_prediction_newest_200_witness :
  api_prediction sin_taylor 0
    (mkWorld true (Vals.mk 130 10) (Settings.mk 3 50 7)
       ([Row.mk 1 60 2 0] ++ repeat (Row.mk 2 100 5 3) 200))
  = api_prediction sin_taylor 0
      (mkWorld true (Vals.mk 130 10) (Settings.mk 3 50 7)
         ([] ++ repeat (Row.mk 2 100 5 3) 200)).
Proof.
  apply (api_prediction_newest_200 sin_taylor 0 true (Vals.mk 130 10)
           (Settings.mk 3 50 7) [Row.mk 1 60 2 0] []
           (repeat (Row.mk 2 100 5 3) 200)).
  apply repeat_length.
Defined.

(** X6.  Every entry [api_prediction] returns is consistent: its three
    statuses are the classification of its own sea level and wind speed,
    and its date is [day] days after the current date. *)
Theorem api_prediction_entries_consistent
        (sin : Q -> Q) (now : Z) (w : World) (l : list Prediction.t) (code : Z) :
  api_prediction sin now w = Some (PredList l, code) ->
  Forall (fun p =>
            compute_status (Prediction.sea_level p) (Prediction.wind_speed p)
            = (Prediction.sea_status p, Prediction.wind_status p,
               Prediction.overall_status p) /\
            Prediction.date p = (now / 86400 + Prediction.day p)%Z) l.
Proof.
  rewrite api_prediction_unfold.
  destruct (Z.of_nat (length (window w)) <? 2)%Z; [discriminate |].
  destruct (_linear_regression (map Row.sea_level (window w)))
    as [[ss si] |]; [| discriminate].
  destruct (_linear_regression (map Row.wind_speed (window w)))
    as [[ws wi] |]; [| discriminate].
  cbn [mbind option_bind]. intro E. injection E as <- _.
  apply Forall_map. apply Forall_forall. intros day _.
  unfold predict_day. cbv zeta.
  match goal with
  | |- context [compute_status (Py.max 50 ?x) (Py.max 1 ?y)] =>
      destruct (compute_status (Py.max 50 x) (Py.max 1 y))
        as [[a b] c] eqn:Ec
  end.
  cbn [Prediction.sea_level Prediction.wind_speed Prediction.sea_status
       Prediction.wind_status Prediction.overall_status Prediction.date
       Prediction.day].
  split; [exact Ec |]. rewrite Z.div_add by lia. reflexivity.
Qed.

Lemma api_prediction_entries_consistent_witness :
  Forall (fun p =>
            compute_status (Prediction.sea_level p) (Prediction.wind_speed p)
            = (Prediction.sea_status p, Prediction.wind_status p,
               Prediction.overall_status p) /\
            Prediction.date p = (100000 / 86400 + Prediction.day p)%Z)
         [Prediction.mk 1 2 250 25 Danger Danger Danger].
Proof.
  apply (api_prediction_entries_consistent sin_taylor 100000
           (mkWorld true (Vals.mk 130 10) (Settings.mk 3 50 1)
                    [Row.mk 1 100 5 0; Row.mk 2 110 6 3])
           [Prediction.mk 1 2 250 25 Danger Danger Danger] 200%Z).
  vm_compute. reflexivity.
Defined.

(* ------------------------------------------------------------------ *)
(** ** Further properties of the routes *)
(* ------------------------------------------------------------------ *)


Lemma rev_snoc_limit_1 {A} (l : list A) (x : A) :
  sql_limit 1 (rev (l ++ [x])) = [x].
Proof. rewrite rev_app_distr. reflexivity. Qed.

(** X8.  Insert then look up: right after a post carrying both fields,
    [api_latest] returns the posted values under the next id and the
    post's timestamp, with the statuses [compute_status] gives them; on an
    empty table it returns the message "no data yet".  Both with
    status 200. *)
Theorem post_then_latest
        (data : gmap string Q) (now : Z) (w : World) (sea wind : Q) :
  data !! "sea_level"%string = Some sea ->
  data !! "wind_speed"%string = Some wind ->
  api_latest (snd (post_sensor_data data now w))
  = (LatestRow
       (row_to_dict
          (Row.mk (Z.of_nat (length (sensor_data w)) + 1) sea wind now)),
     200%Z) /\
  api_latest (mkWorld (dummy_mode_enabled w) (_prev w) (settings w) [])
  = (LatestMessage "no data yet", 200%Z).
Proof.
  intros Hs Hw. split; [| reflexivity].
  unfold post_sensor_data, insert_record. rewrite Hs, Hw.
  unfold api_latest. cbn [snd sensor_data].
  rewrite rev_snoc_limit_1. reflexivity.
Qed.

Lemma post_then_latest_witness :
  api_latest
    (snd (post_sensor_data
            {[ "sea_level"%string := 185; "wind_speed"%string := 4 ]} 9
            initial_world))
  = (LatestRow (RowDict.mk 1 185 4 9 Danger Normal Danger), 200%Z).
Proof.
  apply (post_then_latest
           {[ "sea_level"%string := 185; "wind_speed"%string := 4 ]} 9
           initial_world 185 4); reflexivity.
Defined.

Lemma dict_row_row_to_dict (r : Row.t) : dict_row (row_to_dict r) = r.
Proof.
  unfold row_to_dict. destruct (compute_status _ _) as [[a b] c].
  destruct r. reflexivity.
Qed.

(** X9.  [api_history] returns the newest chart_points rows (all of them
    when there are fewer), oldest first, each with its columns unchanged:
    for a limit k >= 0 the rows are the table without its first n - k
    rows, min(k, n) of them; a negative limit returns the whole table. *)
Theorem api_history_newest (w : World) :
  let limit := Settings.chart_points (settings w) in
  let rows := sensor_data w in
  ((0 <= limit)%Z ->
     api_history w
     = map row_to_dict (skipn (length rows - Z.to_nat limit) rows) /\
     map dict_row (api_history w)
     = skipn (length rows - Z.to_nat limit) rows /\
     length (api_history w) = Nat.min (Z.to_nat limit) (length rows)) /\
  ((limit < 0)%Z -> map dict_row (api_history w) = rows).
Proof.
  cbv zeta. unfold api_history, sql_limit.
  assert (Hid : forall l : list Row.t, map dict_row (map row_to_dict l) = l).
  { intro l. rewrite map_map. erewrite map_ext; [apply map_id |].
    apply dict_row_row_to_dict. }
  split; intro H.
  - destruct (Settings.chart_points (settings w) <? 0)%Z eqn:E;
      [apply Z.ltb_lt in E; lia |].
    rewrite firstn_rev, rev_involutive.
    split; [reflexivity |]. split; [apply Hid |].
    rewrite length_map, length_skipn. lia.
  - destruct (Settings.chart_points (settings w) <? 0)%Z eqn:E;
      [| apply Z.ltb_ge in E; lia].
    rewrite rev_involutive. apply Hid.
Qed.

Lemma api_history_newest_witness :
  map dict_row
      (api_history
         (mkWorld true (Vals.mk 130 10) (Settings.mk 3 2 7)
                  [Row.mk 1 100 5 0; Row.mk 2 110 6 3; Row.mk 3 190 20 6]))
  = [Row.mk 2 110 6 3; Row.mk 3 190 20 6].
Proof.
  apply (proj1 (api_history_newest
                  (mkWorld true (Vals.mk 130 10) (Settings.mk 3 2 7)
                           [Row.mk 1 100 5 0; Row.mk 2 110 6 3;
                            Row.mk 3 190 20 6]))).
  cbn. lia.
Defined.

(** X10.  [api_export_csv] writes the header and then one line per stored
    row, in table order, seven cells each, and the columns of the table
    can be read back from the data lines. *)
Theorem api_export_csv_rows (w : World) :
  let lines := api_export_csv w in
  hd [] lines = csv_header /\
  length lines = S (length (sensor_data w)) /\
  Forall (fun line => length line = 7%nat) lines /\
  map csv_line_row (tl lines) = map Some (sensor_data w).
Proof.
  cbv zeta. unfold api_export_csv. cbn [hd tl length].
  split; [reflexivity |]. split; [rewrite length_map; reflexivity |]. split.
  - constructor; [reflexivity |]. apply Forall_map, Forall_forall.
    intros r _. reflexivity.
  - rewrite map_map. apply map_ext. intro r. unfold row_to_dict.
    destruct (compute_status _ _) as [[a b] c]. destruct r. reflexivity.
Qed.

(** The state [api_generate_dummy] leaves and the record it returns. *)
Lemma api_generate_dummy_unfold (delta_sea delta_wind : Q) (now : Z) (w : World) :
  let g := generate_sensor_values delta_sea delta_wind w in
  let sea := Vals.sea_level (fst g) in
  let wind := Vals.wind_speed (fst g) in
  api_generate_dummy delta_sea delta_wind now w
  = (DummyRecord.mk sea wind now
       (fst (fst (compute_status sea wind)))
       (snd (fst (compute_status sea wind)))
       (snd (compute_status sea wind)),
     mkWorld (dummy_mode_enabled w) (_prev (snd g)) (settings w)
             (sensor_data w
              ++ [Row.mk (Z.of_nat (length (sensor_data w)) + 1) sea wind now])).
Proof.
  cbv zeta. unfold api_generate_dummy, generate_sensor_values, insert_record.
  cbn [fst snd Vals.sea_level Vals.wind_speed sensor_data dummy_mode_enabled
       _prev settings].
  destruct (compute_status _ _) as [[a b] c]. reflexivity.
Qed.

(** X11.  [api_generate_dummy] stores what it returns: it appends exactly
    one row, under the next id, carrying the returned sea level, wind
    speed and timestamp; these values are within [50, 250] and [1, 25];
    the returned statuses are their classification; and [api_latest]
    then shows the same values and statuses.  The flag and the settings
    are untouched. *)
Theorem api_generate_dummy_stores_result
        (delta_sea delta_wind : Q) (now : Z) (w : World) :
  let r := api_generate_dummy delta_sea delta_wind now w in
  let rec := fst r in
  let w' := snd r in
  sensor_data w'
  = sensor_data w
    ++ [Row.mk (Z.of_nat (length (sensor_data w)) + 1)
               (DummyRecord.sea_level rec) (DummyRecord.wind_speed rec)
               (DummyRecord.timestamp rec)] /\
  DummyRecord.timestamp rec = now /\
  in_bounds (DummyRecord.sea_level rec) (DummyRecord.wind_speed rec) /\
  compute_status (DummyRecord.sea_level rec) (DummyRecord.wind_speed rec)
  = (DummyRecord.sea_status rec, DummyRecord.wind_status rec,
     DummyRecord.overall_status rec) /\
  api_latest w'
  = (LatestRow
       (RowDict.mk (Z.of_nat (length (sensor_data w)) + 1)
                   (DummyRecord.sea_level rec) (DummyRecord.wind_speed rec)
                   now (DummyRecord.sea_status rec)
                   (DummyRecord.wind_status rec)
                   (DummyRecord.overall_status rec)), 200%Z) /\
  dummy_mode_enabled w' = dummy_mode_enabled w /\
  settings w' = settings w.
Proof.
  cbv zeta. rewrite api_generate_dummy_unfold. cbv zeta.
  pose proof (generate_sensor_values_bounds delta_sea delta_wind w) as [B _].
  cbv zeta in B.
  set (g := generate_sensor_values delta_sea delta_wind w) in *.
  cbn [fst snd sensor_data dummy_mode_enabled settings DummyRecord.sea_level
       DummyRecord.wind_speed DummyRecord.timestamp DummyRecord.sea_status
       DummyRecord.wind_status DummyRecord.overall_status].
  split; [reflexivity |]. split; [reflexivity |]. split; [exact B |].
  split; [destruct (compute_status _ _) as [[a b] c]; reflexivity |].
  split; [| split; reflexivity].
  unfold api_latest. cbn [sensor_data]. rewrite rev_snoc_limit_1.
  unfold row_to_dict. cbn [Row.sea_level Row.wind_speed Row.id Row.timestamp].
  destruct (compute_status _ _) as [[a b] c]. reflexivity.
Qed.

Lemma _dummy_loop_iteration_on (delta_sea delta_wind : Q) (now : Z) (w : World) :
  dummy_mode_enabled w = true ->
  _dummy_loop_iteration delta_sea delta_wind now w
  = (Settings.data_interval (settings w),
     snd (api_generate_dummy delta_sea delta_wind now w)).
Proof.
  intro H. rewrite api_generate_dummy_unfold. cbv zeta.
  unfold _dummy_loop_iteration, generate_sensor_values, insert_record.
  rewrite H. reflexivity.
Qed.

Lemma _dummy_loop_iteration_off (delta_sea delta_wind : Q) (now : Z) (w : World) :
  dummy_mode_enabled w = false ->
  _dummy_loop_iteration delta_sea delta_wind now w
  = (Settings.data_interval (settings w), w).
Proof. intro H. unfold _dummy_loop_iteration. rewrite H. reflexivity. Qed.

(** X12.  One turn of [_dummy_loop]: with dummy mode off the state is left
    as it is (no draw is stored, no row is written); with dummy mode on
    the state changes exactly as under [api_generate_dummy]; in both
    cases the loop then sleeps data_interval seconds, which is between 1
    and 60 when the settings are within their bounds. *)
Theorem _dummy_loop_iteration_cases
        (delta_sea delta_wind : Q) (now : Z) (w : World) :
  let r := _dummy_loop_iteration delta_sea delta_wind now w in
  fst r = Settings.data_interval (settings w) /\
  (dummy_mode_enabled w = false -> snd r = w) /\
  (dummy_mode_enabled w = true ->
   snd r = snd (api_generate_dummy delta_sea delta_wind now w)) /\
  (settings_in_bounds (settings w) -> (1 <= fst r <= 60)%Z).
Proof.
  cbv zeta.
  pose proof (_dummy_loop_iteration_on delta_sea delta_wind now w) as E.
  pose proof (_dummy_loop_iteration_off delta_sea delta_wind now w) as D.
  assert (F : fst (_dummy_loop_iteration delta_sea delta_wind now w)
              = Settings.data_interval (settings w)).
  { destruct (dummy_mode_enabled w) eqn:H;
      [rewrite E | rewrite D]; reflexivity. }
  split; [exact F |]. split; [| split].
  - intro H. rewrite D by exact H. reflexivity.
  - intro H. rewrite E by exact H. reflexivity.
  - intros (H & _). rewrite F. exact H.
Qed.

Lemma _dummy_loop_iteration_cases_witness :
  snd (_dummy_loop_iteration 1 1 5
         (mkWorld false (Vals.mk 130 10) (Settings.mk 3 50 7) []))
  = mkWorld false (Vals.mk 130 10) (Settings.mk 3 50 7) [].
Proof.
  apply (_dummy_loop_iteration_cases 1 1 5
           (mkWorld false (Vals.mk 130 10) (Settings.mk 3 50 7) [])).
  reflexivity.
Defined.

(** X13.  [api_update_settings] is idempotent (sending the same payload
    again changes nothing and returns the same settings), a value already
    within its field's bounds is stored as it is, and [api_get_settings]
    afterwards returns the settings the update returned. *)
Theorem api_update_settings_idempotent (data : gmap string Z) (w : World) :
  let r := api_update_settings data w in
  api_update_settings data (snd r) = r /\
  api_get_settings (snd r) = (fst r, snd r) /\
  (forall v : Z, data !! "data_interval"%string = Some v ->
                 (1 <= v <= 60)%Z -> Settings.data_interval (fst r) = v) /\
  (forall v : Z, data !! "chart_points"%string = Some v ->
                 (10 <= v <= 500)%Z -> Settings.chart_points (fst r) = v) /\
  (forall v : Z, data !! "prediction_days"%string = Some v ->
                 (1 <= v <= 30)%Z -> Settings.prediction_days (fst r) = v).
Proof.
  cbv zeta. unfold api_update_settings, api_get_settings.
  destruct (data !! "data_interval"%string) as [a |],
           (data !! "chart_points"%string) as [b |],
           (data !! "prediction_days"%string) as [c |];
    cbn [fst snd settings dummy_mode_enabled _prev sensor_data
         Settings.data_interval Settings.chart_points
         Settings.prediction_days];
    (split;
     [ repeat f_equal; try lia; destruct (settings w); reflexivity
     | split;
       [ reflexivity
       | repeat split; intros v E Hv; inversion E; subst; lia ] ]).
Qed.

(* ------------------------------------------------------------------ *)
(** ** Invariants of the process state *)
(* ------------------------------------------------------------------ *)

Lemma ids_sequential_snoc (rows : list Row.t) (sea wind : Q) (ts : Z) :
  ids_sequential rows ->
  ids_sequential
    (rows ++ [Row.mk (Z.of_nat (length rows) + 1) sea wind ts]).
Proof.
  unfold ids_sequential. intro H.
  rewrite map_app, H, length_app. cbn [length map Row.id].
  rewrite Nat.add_1_r, seq_S, map_app. cbn [map]. do 2 f_equal. lia.
Qed.

Lemma api_update_settings_in_bounds (data : gmap string Z) (w : World) :
  settings_in_bounds (settings w) ->
  settings_in_bounds (settings (snd (api_update_settings data w))).
Proof.
  unfold settings_in_bounds, api_update_settings.
  destruct (data !! "data_interval"%string),
           (data !! "chart_points"%string),
           (data !! "prediction_days"%string);
    cbn [snd settings Settings.data_interval Settings.chart_points
         Settings.prediction_days]; lia.
Qed.

(** What each event does to the table: nothing, or one row appended under
    the next id. *)
Lemma step_sensor_data (w : World) (e : Event) :
  sensor_data (step w e) = sensor_data w \/
  exists (sea wind : Q) (ts : Z),
    sensor_data (step w e)
    = sensor_data w
      ++ [Row.mk (Z.of_nat (length (sensor_data w)) + 1) sea wind ts] /\
    (is_post e = false -> in_bounds sea wind).
Proof.
  destruct e as [data now | ds dw now | | data | ds dw now |]; cbn [step].
  - unfold post_sensor_data, insert_record.
    destruct (data !! "sea_level"%string) as [s |],
             (data !! "wind_speed"%string) as [v |];
      cbn [snd sensor_data]; try (left; reflexivity).
    right. exists s, v, now. split; [reflexivity | discriminate].
  - right. rewrite api_generate_dummy_unfold. cbv zeta. cbn [snd sensor_data].
    eexists _, _, _. split; [reflexivity |]. intros _.
    apply generate_sensor_values_bounds.
  - left. reflexivity.
  - left. reflexivity.
  - destruct (dummy_mode_enabled w) eqn:F.
    + right.
      rewrite (_dummy_loop_iteration_on ds dw now w F).
      cbn [snd]. rewrite api_generate_dummy_unfold. cbv zeta.
      cbn [snd sensor_data].
      eexists _, _, _. split; [reflexivity |]. intros _.
      apply generate_sensor_values_bounds.
    + left. rewrite (_dummy_loop_iteration_off ds dw now w F). reflexivity.
  - left. reflexivity.
Qed.

Lemma step_invariant (w : World) (e : Event) :
  world_invariant w -> world_invariant (step w e).
Proof.
  intros (Hs & Hp & Hi).
  destruct e as [data now | ds dw now | | data | ds dw now |]; cbn [step].
  - unfold post_sensor_data, insert_record.
    destruct (data !! "sea_level"%string) as [s |],
             (data !! "wind_speed"%string) as [v |];
      cbn [snd]; try (split; [exact Hs |]; split; [exact Hp | exact Hi]).
    split; [exact Hs |]. split; [exact Hp |].
    apply ids_sequential_snoc. exact Hi.
  - rewrite api_generate_dummy_unfold. cbv zeta. cbn [snd].
    split; [exact Hs |]. split.
    + apply generate_sensor_values_bounds.
    + apply ids_sequential_snoc. exact Hi.
  - split; [exact Hs |]. split; [exact Hp | exact Hi].
  - split; [apply api_update_settings_in_bounds; exact Hs |].
    split; [exact Hp | exact Hi].
  - destruct (dummy_mode_enabled w) eqn:F.
    + rewrite (_dummy_loop_iteration_on ds dw now w F). cbn [snd].
      rewrite api_generate_dummy_unfold. cbv zeta. cbn [snd].
      split; [exact Hs |]. split.
      * apply generate_sensor_values_bounds.
      * apply ids_sequential_snoc. exact Hi.
    + rewrite (_dummy_loop_iteration_off ds dw now w F).
      split; [exact Hs |]. split; [exact Hp | exact Hi].
  - split; [exact Hs |]. split; [exact Hp | exact Hi].
Qed.

Lemma initial_world_invariant : world_invariant initial_world.
Proof.
  unfold world_invariant, settings_in_bounds, in_bounds, ids_sequential.
  cbn. repeat split; try lia; try discriminate.
Qed.

(** X14.  Invariant of the process state.  Whatever requests arrive and
    however often the background loop turns, from a state in which the
    settings are within their bounds, the generator state is within
    [50, 250] x [1, 25] and the row ids are 1, 2, ..., n, the state
    reached has the same three properties.  The state the program starts
    in has them. *)
Theorem run_invariant (events : list Event) (w : World) :
  world_invariant w -> world_invariant (run events w).
Proof.
  unfold run. revert w. induction events as [| e events IH]; intros w H.
  - exact H.
  - cbn [fold_left]. apply IH. apply step_invariant. exact H.
Qed.

Lemma run_invariant_witness :
  world_invariant
    (run [EvUpdateSettings {[ "chart_points"%string := 100000%Z ]};
          EvDummyLoop 200 (-40) 3;
          EvPostSensorData
            {[ "sea_level"%string := 1000; "wind_speed"%string := 0 ]} 4;
          EvToggleDummy;
          EvGenerateDummy 8 3 5]
         initial_world).
Proof.
  apply (run_invariant
           [EvUpdateSettings {[ "chart_points"%string := 100000%Z ]};
            EvDummyLoop 200 (-40) 3;
            EvPostSensorData
              {[ "sea_level"%string := 1000; "wind_speed"%string := 0 ]} 4;
            EvToggleDummy;
            EvGenerateDummy 8 3 5]
           initial_world).
  exact initial_world_invariant.
Defined.

(** X15.  The table is append-only: no request and no turn of the loop
    removes or changes a stored row.  After any sequence of events the
    table is the former table followed by the new rows, at most one per
    event. *)
Theorem run_append_only (events : list Event) (w : World) :
  exists added : list Row.t,
    sensor_data (run events w) = sensor_data w ++ added /\
    (length added <= length events)%nat.
Proof.
  unfold run. revert w. induction events as [| e events IH]; intro w.
  - exists []. split; [rewrite app_nil_r; reflexivity | cbn; lia].
  - cbn [fold_left]. destruct (IH (step w e)) as (added & E & L).
    destruct (step_sensor_data w e) as [S | (sea & wind & ts & S & _)].
    + exists added. rewrite E, S. split; [reflexivity | cbn [length]; lia].
    + eexists (_ :: added). rewrite E, S, <- app_assoc.
      split; [reflexivity | cbn [length]; lia].
Qed.

(** X16.  Without external posts the table stays within the physical
    bounds: if every stored row has its sea level in [50, 250] and its
    wind speed in [1, 25], and none of the events is a POST of sensor
    data, then every row of the table reached is within these bounds
    (the rows written by the loop and by manual generation are). *)
Theorem run_rows_in_bounds (events : list Event) (w : World) :
  Forall row_in_bounds (sensor_data w) ->
  forallb (fun e => negb (is_post e)) events = true ->
  Forall row_in_bounds (sensor_data (run events w)).
Proof.
  unfold run. revert w. induction events as [| e events IH]; intros w H P.
  - exact H.
  - cbn [fold_left]. cbn [forallb] in P. apply andb_prop in P as [Pe P].
    apply IH; [| exact P].
    destruct (step_sensor_data w e) as [S | (sea & wind & ts & S & B)].
    + rewrite S. exact H.
    + rewrite S. apply Forall_app. split; [exact H |].
      constructor; [| constructor].
      apply B. destruct (is_post e); [discriminate | reflexivity].
Qed.

Lemma run_rows_in_bounds_witness :
  Forall row_in_bounds
    (sensor_data
       (run [EvDummyLoop 200 (-40) 3; EvToggleDummy; EvDummyLoop 1 1 6;
             EvGenerateDummy 8 3 9]
            initial_world)).
Proof.
  apply (run_rows_in_bounds
           [EvDummyLoop 200 (-40) 3; EvToggleDummy; EvDummyLoop 1 1 6;
            EvGenerateDummy 8 3 9]
           initial_world).
  - constructor.
  - reflexivity.
Defined.

(* ------------------------------------------------------------------ *)
(** ** Further properties of the classifier and of the reading routes *)
(* ------------------------------------------------------------------ *)

(** X17.  [compute_status] is monotone: a higher sea level never gives a
    less severe sea status, a higher wind speed never gives a less severe
    wind status, and raising either (or both) never lowers the overall
    status. *)
Theorem compute_status_monotone (sea_level sea_level' wind_speed wind_speed' : Q) :
  sea_level <= sea_level' ->
  wind_speed <= wind_speed' ->
  let '(sea_status, wind_status, overall) :=
    compute_status sea_level wind_speed in
  let '(sea_status', wind_status', overall') :=
    compute_status sea_level' wind_speed' in
  (priority sea_status <= priority sea_status')%Z /\
  (priority wind_status <= priority wind_status')%Z /\
  (priority overall <= priority overall')%Z.
Proof.
  intros Hs Hw. unfold compute_status.
  cases_cmp; cbn; repeat split; try lia; exfalso; lra.
Qed.

Lemma compute_status_monotone_witness :
  (priority Normal <= priority Warning)%Z /\
  (priority Warning <= priority Warning)%Z /\
  (priority Warning <= priority Warning)%Z.
Proof.
  pose proof (compute_status_monotone 100 150 12 12) as H.
  change (compute_status 100 12) with (Normal, Warning, Warning) in H.
  change (compute_status 150 12) with (Warning, Warning, Warning) in H.
  cbv beta iota in H. apply H; vm_compute; discriminate.
Defined.

(** X18.  The history ends with the latest sample: when the table is not
    empty and chart_points is positive, the last entry of [api_history]
    is the entry [api_latest] returns. *)
Theorem api_history_ends_with_latest (w : World) (d0 : RowDict.t) :
  (0 < Settings.chart_points (settings w))%Z ->
  sensor_data w <> [] ->
  api_latest w = (LatestRow (List.last (api_history w) d0), 200%Z).
Proof.
  intros Hl Hne.
  destruct (exists_last Hne) as (l & x & E).
  unfold api_latest, api_history. rewrite E, rev_snoc_limit_1.
  rewrite rev_app_distr. cbn [rev app].
  unfold sql_limit.
  destruct (Settings.chart_points (settings w) <? 0)%Z eqn:C;
    [apply Z.ltb_lt in C; lia |].
  destruct (Z.to_nat (Settings.chart_points (settings w))) as [| m] eqn:M;
    [lia |].
  cbn [firstn rev]. rewrite map_app. cbn [map]. rewrite last_last.
  reflexivity.
Qed.

Lemma api_history_ends_with_latest_witness :
  api_latest
    (mkWorld true (Vals.mk 130 10) (Settings.mk 3 2 7)
             [Row.mk 1 100 5 0; Row.mk 2 110 6 3; Row.mk 3 190 20 6])
  = (LatestRow
       (List.last (api_history
                (mkWorld true (Vals.mk 130 10) (Settings.mk 3 2 7)
                         [Row.mk 1 100 5 0; Row.mk 2 110 6 3;
                          Row.mk 3 190 20 6]))
             (RowDict.mk 0 0 0 0 Normal Normal Normal)), 200%Z).
Proof.
  apply (api_history_ends_with_latest
           (mkWorld true (Vals.mk 130 10) (Settings.mk 3 2 7)
                    [Row.mk 1 100 5 0; Row.mk 2 110 6 3; Row.mk 3 190 20 6])
           (RowDict.mk 0 0 0 0 Normal Normal Normal)).
  - cbn. lia.
  - discriminate.
Defined.
